(** * abf: a client for the ABF Freight pickup API

    Shallow embedding of [abf.go] (package [abf]) together with the small
    parts of the Go standard library and of [github.com/pkg/errors] that
    [RequestPickup] calls, followed by the properties of the request encoder,
    the response classification and the process-wide configuration. *)

From Stdlib Require Import ZArith Lia Ascii String DecimalString DecimalPos DecimalN DecimalZ.
From Stdlib Require Import Floats.SpecFloat.
From stdpp Require Import gmap strings list sorting.

Local Open Scope string_scope.
Local Open Scope Z_scope.
Local Open Scope list_scope.

(** ** Machine integers *)

(** Go's [int] and [int64] on a 64-bit platform: two's complement wrap-around. *)
Definition wrap64 (z : Z) : Z := (z + 2^63) mod 2^64 - 2^63.

(** Go's [uint] on a 64-bit platform. *)
Definition uint_max : Z := 2^64 - 1.

(** The conversion [int(x)] of an [x : uint]. *)
Definition int_of_uint (x : Z) : Z := wrap64 x.

(** ** Package [strconv] *)

Module strconv.

(** [strconv.Itoa]: the decimal representation, with a leading minus sign
    for negative numbers. *)
Definition Itoa (i : Z) : string := NilZero.string_of_int (Z.to_int i).

(** Decimal digits of a natural number: the integer part printed by
    [FormatFloat] in the ['f'] format. *)
Definition digits (n : N) : string := NilZero.string_of_uint (N.to_uint n).

(** Rounding of [m / 2^k] to an integer, to nearest, ties to even: this is
    what [decimal.Round] does to the exact decimal expansion of a float. *)
Definition round_half_even (m : Z) (k : Z) : Z :=
  let q := Z.shiftr m k in
  let r := m - Z.shiftl q k in
  let half := Z.shiftl 1 (k - 1) in
  if (half <? r) || ((r =? half) && Z.odd q) then q + 1 else q.

(** The integer printed for the finite value [m * 2^e]. *)
Definition round_finite (m : positive) (e : Z) : Z :=
  if 0 <=? e then Z.shiftl (Z.pos m) e else round_half_even (Z.pos m) (- e).

Definition sign_prefix (s : bool) : string := if s then "-" else "".

(** [strconv.FormatFloat(f, 'f', 0, 64)]: no digit after the decimal point,
    and no decimal point. *)
Definition FormatFloat_f0 (f : spec_float) : string :=
  match f with
  | S754_nan => "NaN"
  | S754_infinity false => "+Inf"
  | S754_infinity true => "-Inf"
  | S754_zero s => sign_prefix s +:+ "0"
  | S754_finite s m e => sign_prefix s +:+ digits (Z.to_N (round_finite m e))
  end.

End strconv.

(** ** Package [net/url] *)

Module url.

(** [url.Values] is a [map[string][]string]. *)
Abbreviation Values := (gmap string (list string)).

(** [v.Add(key, value)]: append to the values of [key]. *)
Definition Add (key value : string) (v : Values) : Values :=
  <[key := default [] (v !! key) ++ [value]]> v.

Definition upperhex (n : N) : ascii :=
  match n with
  | 0 => "0" | 1 => "1" | 2 => "2" | 3 => "3" | 4 => "4" | 5 => "5"
  | 6 => "6" | 7 => "7" | 8 => "8" | 9 => "9" | 10 => "A" | 11 => "B"
  | 12 => "C" | 13 => "D" | 14 => "E" | _ => "F"
  end%N%char.

(** [shouldEscape(c, encodeQueryComponent)]: only the unreserved characters
    are left alone. *)
Definition shouldEscape (c : ascii) : bool :=
  let n := N_of_ascii c in
  negb ((97 <=? n) && (n <=? 122) || (65 <=? n) && (n <=? 90)
        || (48 <=? n) && (n <=? 57)
        || (n =? 45) || (n =? 95) || (n =? 46) || (n =? 126))%N.

(** [url.QueryEscape] *)
Fixpoint QueryEscape (s : string) : string :=
  match s with
  | EmptyString => EmptyString
  | String c rest =>
      if Ascii.eqb c " " then String "+" (QueryEscape rest)
      else if shouldEscape c then
        String "%" (String (upperhex (N_of_ascii c / 16))
                      (String (upperhex (N_of_ascii c mod 16)) (QueryEscape rest)))
      else String c (QueryEscape rest)
  end.

(** Go compares strings byte by byte. *)
Definition string_le (a b : string) : Prop := String.leb a b = true.

#[global] Instance string_le_dec a b : Decision (string_le a b).
Proof. unfold string_le. apply _. Defined.

(** The inner loop of [Encode]: the pairs of one key, written to the
    buffer. *)
Fixpoint write_pairs (keyEscaped : string) (vs : list string) (buf : string) : string :=
  match vs with
  | [] => buf
  | val :: vs' =>
      let buf := if (0 <? String.length buf)%nat then buf +:+ "&" else buf in
      write_pairs keyEscaped vs' (buf +:+ keyEscaped +:+ "=" +:+ QueryEscape val)
  end.

Fixpoint write_keys (v : Values) (keys : list string) (buf : string) : string :=
  match keys with
  | [] => buf
  | k :: keys' =>
      write_keys v keys' (write_pairs (QueryEscape k) (default [] (v !! k)) buf)
  end.

(** [v.Encode()] when [for k := range v] enumerates the keys in the order
    [keys]: Go leaves that order unspecified, and [Encode] sorts the keys
    before it writes anything. *)
Definition Encode_range (keys : list string) (v : Values) : string :=
  write_keys v (merge_sort string_le keys) "".

(** [v.Encode()] *)
Definition Encode (v : Values) : string :=
  Encode_range (elements (dom v)) v.

End url.


(** ** Package [github.com/pkg/errors] and Go's [error] values *)

(** A non-nil [error].  [Foreign] stands for the errors made by [net/http],
    [io/ioutil] and [encoding/xml]; the two others are the values of
    [errors.New] and [errors.Wrap]. *)
Inductive error : Type :=
| Foreign (msg : string)
| New (message : string)
| withMessage (cause : error) (message : string).

(** The method [Error()]: a wrapped error prints its message, a colon
    and its cause. *)
Fixpoint Error_string (e : error) : string :=
  match e with
  | Foreign msg => msg
  | New message => message
  | withMessage cause message => message +:+ ": " +:+ Error_string cause
  end.

(** [errors.Wrap(err, message)]; a nil [err] stays nil. *)
Definition Wrap (err : option error) (message : string) : option error :=
  match err with
  | None => None
  | Some cause => Some (withMessage cause message)
  end.

(** ** The data of package [abf] *)

Definition abfPickupURL : string := "https://www.abfs.com/xml/pickupxml.asp".

Definition RequesterShipper : string := "1".
Definition RequesterConsignee : string := "2".
Definition RequesterThirdParty : string := "3".
Definition PayTermsPrepaid : string := "P".
Definition PayTermsCollect : string := "C".
Definition HandlingUnitPallet : string := "PLT".

(** [time.Second], in nanoseconds: a [time.Duration] is an [int64]. *)
Definition time_Second : Z := 1000000000.

(** [Commodity]: [uint] fields are integers in [0, uint_max], [float64]
    fields are IEEE 754 binary64 values. *)
Record Commodity : Type := {
  HandlingUnits : Z;
  UnitType : string;
  Pieces : Z;
  PiecesType : string;
  Weight : spec_float;
  Class : string;
  NMFC : string;
  NMFCSub : string;
  Cube : spec_float;
  Description : string;
  Hazmat : string
}.

Record PickupRequest : Type := {
  ID : string;
  RequesterType : string;
  PayTerms : string;
  ShipContact : string;
  ShipName : string;
  ShipAddress : string;
  ShipCity : string;
  ShipState : string;
  ShipZip : string;
  ShipCountry : string;
  ShipPhone : string;
  ConsCity : string;
  ConsState : string;
  ConsZip : string;
  ConsCountry : string;
  PickupDate : string;
  AT : string;
  OT : string;
  CT : string;
  Items : list Commodity;
  Test : string;
  RequesterName : string;
  RequesterEmail : string;
  RequesterPhone : string;
  RequesterPhoneExt : string;
  ShipNamePlus : string;
  ShipPhoneExt : string;
  ShipFax : string;
  ShipEmail : string;
  ConsContact : string;
  ConsName : string;
  ConsNamePlus : string;
  ConsAddress : string;
  ConsPhone : string;
  ConsPhoneExt : string;
  ConsFax : string;
  ConsEmail : string;
  TPBContact : string;
  TPBName : string;
  TPBNamePlus : string;
  TPBAddress : string;
  TPBCity : string;
  TPBState : string;
  TPBZip : string;
  TPBCountry : string;
  TPBPhone : string;
  TPBPhoneExt : string;
  TPBFax : string;
  TPBEmail : string;
  Bol : string;
  PO1 : string;
  CRN1 : string
}.

(** [Error]: the error element of the reply. *)
Record Error : Type := {
  Code : string;
  Message : string
}.

(** [xml.Name] *)
Record xml_Name : Type := {
  Name_Space : string;
  Name_Local : string
}.

(** [Response].  The three [interface{}] fields hold [None] for Go's nil
    interface; the field [Error] of the source is [Response_Error] here,
    next to the type [Error]. *)
Record Response : Type := {
  XMLName : xml_Name;
  ConfirmationNumber : string;
  Ship : option string;
  Consignee : option string;
  ThirdParty : option string;
  NumErrors : Z;
  Response_Error : Error
}.

(** The zero value of [Response], which [responseData] holds on entry. *)
Definition zeroResponse : Response :=
  {| XMLName := {| Name_Space := ""; Name_Local := "" |};
     ConfirmationNumber := "";
     Ship := None; Consignee := None; ThirdParty := None;
     NumErrors := 0;
     Response_Error := {| Code := ""; Message := "" |} |}.

(** ** Process-wide configuration *)

(** The package variables [testMode] and [timeout]. *)
Record Config : Type := {
  testMode : string;
  timeout : Z
}.

(** The values the package variables are initialised with. *)
Definition initialConfig : Config :=
  {| testMode := "Y"; timeout := wrap64 (10 * time_Second) |}.

(** [SetProductionMode] *)
Definition SetProductionMode (yes : bool) (cfg : Config) : Config :=
  if yes then {| testMode := "N"; timeout := timeout cfg |} else cfg.

(** [SetTimeout]: the product of two [time.Duration] values is an [int64]
    product. *)
Definition SetTimeout (seconds : Z) (cfg : Config) : Config :=
  {| testMode := testMode cfg; timeout := wrap64 (seconds * time_Second) |}.

(** ** [RequestPickup] *)

(** The parameters added before the loop: 22 fields of the request, then
    the package variable [testMode] under the key [Test]. *)
Definition addFields (cfg : Config) (p : PickupRequest) (v : url.Values) : url.Values :=
  let v := url.Add "ID" (ID p) v in
  let v := url.Add "RequesterType" (RequesterType p) v in
  let v := url.Add "PayTerms" (PayTerms p) v in
  let v := url.Add "ShipContact" (ShipContact p) v in
  let v := url.Add "ShipName" (ShipName p) v in
  let v := url.Add "ShipAddress" (ShipAddress p) v in
  let v := url.Add "ShipCity" (ShipCity p) v in
  let v := url.Add "ShipState" (ShipState p) v in
  let v := url.Add "ShipZip" (ShipZip p) v in
  let v := url.Add "ShipCountry" (ShipCountry p) v in
  let v := url.Add "ShipPhone" (ShipPhone p) v in
  let v := url.Add "ConsCity" (ConsCity p) v in
  let v := url.Add "ConsState" (ConsState p) v in
  let v := url.Add "ConsZip" (ConsZip p) v in
  let v := url.Add "ConsCountry" (ConsCountry p) v in
  let v := url.Add "PickupDate" (PickupDate p) v in
  let v := url.Add "AT" (AT p) v in
  let v := url.Add "OT" (OT p) v in
  let v := url.Add "CT" (CT p) v in
  let v := url.Add "Bol" (Bol p) v in
  let v := url.Add "PO1" (PO1 p) v in
  let v := url.Add "CRN1" (CRN1 p) v in
  url.Add "Test" (testMode cfg) v.

(** One turn of the loop over [p.Items]. *)
Definition addItem (index : nat) (item : Commodity) (v : url.Values) : url.Values :=
  let i := strconv.Itoa (Z.of_nat index) in
  let v := url.Add ("HN" +:+ i) (strconv.Itoa (int_of_uint (HandlingUnits item))) v in
  let v := url.Add ("HT" +:+ i) (UnitType item) v in
  let v := url.Add ("PN" +:+ i) (strconv.Itoa (int_of_uint (Pieces item))) v in
  let v := url.Add ("PT" +:+ i) (PiecesType item) v in
  url.Add ("WT" +:+ i) (strconv.FormatFloat_f0 (Weight item)) v.

(** [for index, item := range p.Items], from [index] on. *)
Fixpoint addItems (index : nat) (items : list Commodity) (v : url.Values) : url.Values :=
  match items with
  | [] => v
  | item :: rest => addItems (S index) rest (addItem index item v)
  end.

(** The request parameters [v] as they are when [v.Encode()] is posted. *)
Definition requestValues (cfg : Config) (p : PickupRequest) : url.Values :=
  addItems 0 (Items p) (addFields cfg p ∅).

(** What the HTTP exchange gives back: [Post] fails, or it returns a
    response whose body [ioutil.ReadAll] fails to read or reads whole. *)
Inductive Exchange : Type :=
| PostFailed (e : error)
| ReadFailed (e : error)
| Body (body : string).

(** What a call does to the outside, in order. *)
Inductive Event : Type :=
| LogPrintln (line : string)
| LogPrintf (r : Response)
| HttpPost (clientTimeout : Z) (target contentType body : string).

(** The two results of [RequestPickup], with the events of the call. *)
Record Outcome : Type := {
  responseData : Response;
  err : option error;
  events : list Event
}.

Section RequestPickup.

(** [httpClient.Post] followed by [ioutil.ReadAll], for a client with the
    given timeout. *)
Variable httpPost : Z -> string -> string -> string -> Exchange.

(** [xml.Unmarshal(body, &responseData)]: the structure as the decoder
    leaves it, and its error. *)
Variable xmlUnmarshal : string -> Response -> Response * option error.

(** [RequestPickup].  [err] is the named result, so the bare [return]
    after a failure returns the error of the failed call; the value of
    each [errors.Wrap] in those branches is dropped. *)
Definition RequestPickup (cfg : Config) (p : PickupRequest) : Outcome :=
  let v := addFields cfg p ∅ in
  let ev := [LogPrintln (url.Encode v)] in
  let v := addItems 0 (Items p) v in
  let body := url.Encode v in
  let ev := ev ++ [HttpPost (timeout cfg) abfPickupURL "application/x-www-form-urlencoded" body] in
  match httpPost (timeout cfg) abfPickupURL "application/x-www-form-urlencoded" body with
  | PostFailed e => {| responseData := zeroResponse; err := Some e; events := ev |}
  | ReadFailed e => {| responseData := zeroResponse; err := Some e; events := ev |}
  | Body body =>
      match xmlUnmarshal body zeroResponse with
      | (r, Some e) => {| responseData := r; err := Some e; events := ev |}
      | (r, None) =>
          if String.eqb (ConfirmationNumber r) "" then
            let ev := ev ++ [LogPrintln "abf.RequestPickup - pickup request failed"; LogPrintf r] in
            let e := Some (New "abf.RequestPickup - pickup request failed") in
            let e := Wrap e (Message (Response_Error r)) in
            {| responseData := r; err := e; events := ev |}
          else {| responseData := r; err := None; events := ev |}
      end
  end.

End RequestPickup.

(** ** Package [encoding/xml], on plain documents *)

(** [xml.Unmarshal(body, &responseData)] is modelled on the documents made
    of start tags [<NAME>], end tags [</NAME>] and text, where a name is an
    ASCII letter followed by ASCII letters and digits, and text is made of
    printable ASCII characters, tabs and newlines other than [<], [&] and
    []].  What the decoder does with anything else that it reads (attributes,
    comments, entities, declarations, other bytes) is left to a parameter.
    The messages of the errors are abridged: the line number of a syntax
    error is left out. *)
Module xml.

(** The tokens of the decoder, and the two ways the reading ends early. *)
Inductive Item : Type :=
| StartElement (name : string)
| EndElement (name : string)
| CharData (text : string)
| SyntaxError (msg : string)
| Unmodelled.

Definition isLetter (c : ascii) : bool :=
  let n := N_of_ascii c in
  ((65 <=? n) && (n <=? 90) || (97 <=? n) && (n <=? 122))%N.

Definition isDigit (c : ascii) : bool :=
  let n := N_of_ascii c in ((48 <=? n) && (n <=? 57))%N.

(** Space, tab and newline. *)
Definition isSpace (c : ascii) : bool :=
  let n := N_of_ascii c in ((n =? 32) || (n =? 9) || (n =? 10))%N.

(** The bytes of the text of plain documents. *)
Definition isPlain (c : ascii) : bool :=
  let n := N_of_ascii c in
  ((n =? 9) || (n =? 10)
   || (32 <=? n) && (n <=? 126) && negb (n =? 60) && negb (n =? 38) && negb (n =? 93))%N.

(** Where the reader is: in text, after [<], in the name of a start tag,
    after [</], in the name of an end tag. *)
Inductive LexState : Type :=
| InText (text : string)
| AfterLt
| InStart (name : string)
| AfterSlash
| InEnd (name : string).

(** No token is made of an empty text. *)
Definition withText (text : string) (items : list Item) : list Item :=
  if String.eqb text "" then items else CharData text :: items.

(** The tokens of a body, up to its end or to the first byte that is not
    of a plain document; an input that ends inside a tag is a syntax
    error. *)
Fixpoint lex (st : LexState) (s : string) : list Item :=
  match s with
  | EmptyString =>
      match st with
      | InText text => withText text []
      | _ => [SyntaxError "unexpected EOF"]
      end
  | String c rest =>
      match st with
      | InText text =>
          if Ascii.eqb c "<" then withText text (lex AfterLt rest)
          else if isPlain c then lex (InText (text +:+ String c "")) rest
          else [Unmodelled]
      | AfterLt =>
          if isLetter c then lex (InStart (String c "")) rest
          else if Ascii.eqb c "/" then lex AfterSlash rest
          else [Unmodelled]
      | InStart name =>
          if isLetter c || isDigit c then lex (InStart (name +:+ String c "")) rest
          else if Ascii.eqb c ">" then StartElement name :: lex (InText "") rest
          else [Unmodelled]
      | AfterSlash =>
          if isLetter c then lex (InEnd (String c "")) rest
          else [Unmodelled]
      | InEnd name =>
          if isLetter c || isDigit c then lex (InEnd (name +:+ String c "")) rest
          else if Ascii.eqb c ">" then EndElement name :: lex (InText "") rest
          else [Unmodelled]
      end
  end.

Definition tokens (body : string) : list Item := lex (InText "") body.

(** [strings.TrimSpace], on the spaces of plain documents. *)
Fixpoint trimLeft (s : string) : string :=
  match s with
  | String c rest => if isSpace c then trimLeft rest else s
  | EmptyString => EmptyString
  end.

Fixpoint trimRight (s : string) : string :=
  match s with
  | EmptyString => EmptyString
  | String c rest =>
      let t := trimRight rest in
      if String.eqb t "" && isSpace c then EmptyString else String c t
  end.

Definition TrimSpace (s : string) : string := trimRight (trimLeft s).

(** The digits of [strconv.ParseUint(s, 10, 64)], read after [acc]. *)
Fixpoint parseDigits (s : string) (acc : Z) : option Z :=
  match s with
  | EmptyString => Some acc
  | String c rest =>
      if isDigit c then parseDigits rest (10 * acc + (Z.of_N (N_of_ascii c) - 48))
      else None
  end.

(** The text of [s] between double quotes. *)
Definition quoted (s : string) : string :=
  String (ascii_of_N 34) s +:+ String (ascii_of_N 34) EmptyString.

(** [strconv.ParseUint(s, 10, 64)] *)
Definition ParseUint (s : string) : Z + error :=
  match s with
  | EmptyString =>
      inr (Foreign ("strconv.ParseUint: parsing " +:+ quoted s +:+ ": invalid syntax"))
  | _ =>
      match parseDigits s 0 with
      | None =>
          inr (Foreign ("strconv.ParseUint: parsing " +:+ quoted s +:+ ": invalid syntax"))
      | Some n =>
          if n <=? uint_max then inl n
          else inr (Foreign ("strconv.ParseUint: parsing " +:+ quoted s +:+ ": value out of range"))
      end
  end.

(** The fields of [Response] and of [Error] that take the text of an
    element. *)
Inductive Field : Type :=
| FConfirmationNumber
| FNumErrors
| FCode
| FMessage.

(** The field that takes the text of the innermost open element, given the
    names of the open elements below the root, innermost first.  The
    elements under [SHIP], [CONS] and [TPB] go to fields of type
    [interface{}], which the decoder skips, as it skips unknown elements. *)
Definition fieldOf (open : list string) : option Field :=
  match open with
  | [a] =>
      if String.eqb a "CONFIRMATION" then Some FConfirmationNumber
      else if String.eqb a "NUMERRORS" then Some FNumErrors
      else None
  | [a; b] =>
      if String.eqb b "ERROR" then
        if String.eqb a "ERRORCODE" then Some FCode
        else if String.eqb a "ERRORMESSAGE" then Some FMessage
        else None
      else None
  | _ => None
  end.

Definition setXMLName (name : xml_Name) (r : Response) : Response :=
  {| XMLName := name; ConfirmationNumber := ConfirmationNumber r;
     Ship := Ship r; Consignee := Consignee r; ThirdParty := ThirdParty r;
     NumErrors := NumErrors r; Response_Error := Response_Error r |}.

Definition setConfirmationNumber (text : string) (r : Response) : Response :=
  {| XMLName := XMLName r; ConfirmationNumber := text;
     Ship := Ship r; Consignee := Consignee r; ThirdParty := ThirdParty r;
     NumErrors := NumErrors r; Response_Error := Response_Error r |}.

Definition setNumErrors (n : Z) (r : Response) : Response :=
  {| XMLName := XMLName r; ConfirmationNumber := ConfirmationNumber r;
     Ship := Ship r; Consignee := Consignee r; ThirdParty := ThirdParty r;
     NumErrors := n; Response_Error := Response_Error r |}.

Definition setError (e : Error) (r : Response) : Response :=
  {| XMLName := XMLName r; ConfirmationNumber := ConfirmationNumber r;
     Ship := Ship r; Consignee := Consignee r; ThirdParty := ThirdParty r;
     NumErrors := NumErrors r; Response_Error := e |}.

(** [copyValue]: the text of an element goes to its field when the element
    ends; an unsigned field takes 0 for an empty text and the number that the
    trimmed text denotes otherwise. *)
Definition copyValue (f : Field) (text : string) (r : Response) : Response + error :=
  match f with
  | FConfirmationNumber => inl (setConfirmationNumber text r)
  | FNumErrors =>
      if String.eqb text "" then inl (setNumErrors 0 r)
      else match ParseUint (TrimSpace text) with
           | inl n => inl (setNumErrors n r)
           | inr e => inr e
           end
  | FCode =>
      inl (setError {| Code := text; Message := Message (Response_Error r) |} r)
  | FMessage =>
      inl (setError {| Code := Code (Response_Error r); Message := text |} r)
  end.

(** What the decoder gives: the structure filled without error, the
    structure as it is when an error stops the decoding, or nothing, when
    the body is not a plain document as far as the decoder reads it. *)
Inductive Result : Type :=
| Decoded (r : Response)
| Failed (r : Response) (e : error)
| OutOfModel.

Definition syntaxError (msg : string) : error :=
  Foreign ("XML syntax error: " +:+ msg).

(** The decoding of the tokens.  [open] is [None] before the root
    element, and then the names of the open elements below the root,
    innermost first; [text] is the text read so far for the field of the
    open elements.  The decoding ends with the end tag of the root: the
    tokens after it are not read. *)
Fixpoint decode (open : option (list string)) (text : string) (r : Response)
    (items : list Item) : Result :=
  match items with
  | [] =>
      match open with
      | None => Failed r (Foreign "EOF")
      | Some _ => Failed r (syntaxError "unexpected EOF")
      end
  | SyntaxError msg :: _ => Failed r (syntaxError msg)
  | Unmodelled :: _ => OutOfModel
  | CharData t :: rest =>
      match open with
      | None => decode None text r rest
      | Some names =>
          decode open (if fieldOf names then text +:+ t else text) r rest
      end
  | StartElement name :: rest =>
      match open with
      | None =>
          if String.eqb name "ABF" then
            decode (Some []) "" (setXMLName {| Name_Space := ""; Name_Local := name |} r) rest
          else
            Failed r (Foreign ("expected element type <ABF> but have <" +:+ name +:+ ">"))
      | Some names =>
          decode (Some (name :: names))
            (if fieldOf (name :: names) then "" else text) r rest
      end
  | EndElement name :: rest =>
      match open with
      | None => Failed r (syntaxError ("unexpected end element </" +:+ name +:+ ">"))
      | Some [] =>
          if String.eqb name "ABF" then Decoded r
          else Failed r (syntaxError ("element <ABF> closed by </" +:+ name +:+ ">"))
      | Some (top :: names) =>
          if String.eqb name top then
            match fieldOf (top :: names) with
            | None => decode (Some names) text r rest
            | Some f =>
                match copyValue f text r with
                | inl r' => decode (Some names) text r' rest
                | inr e => Failed r e
                end
            end
          else
            Failed r (syntaxError ("element <" +:+ top +:+ "> closed by </" +:+ name +:+ ">"))
      end
  end.

(** [xml.Unmarshal(body, &responseData)], with [other] for the bodies that
    are not plain documents. *)
Definition Unmarshal (other : string -> Response -> Response * option error)
    (body : string) (r : Response) : Response * option error :=
  match decode None "" r (tokens body) with
  | Decoded r' => (r', None)
  | Failed r' e => (r', Some e)
  | OutOfModel => other body r
  end.

(** The bodies that are plain documents as far as the decoder reads
    them. *)
Definition plain (body : string) : bool :=
  match decode None "" zeroResponse (tokens body) with
  | OutOfModel => false
  | _ => true
  end.

(** The bodies that are plain documents from end to end. *)
Definition allPlain (body : string) : bool :=
  forallb (fun item => match item with Unmodelled => false | _ => true end)
    (tokens body).

(** *** Well-formed documents *)






End xml.

(** ** The calls a program can make on the package *)

Inductive Call : Type :=
| CallSetProductionMode (yes : bool)
| CallSetTimeout (seconds : Z)
| CallRequestPickup (p : PickupRequest).

(** The configuration after one call: [RequestPickup] only reads it. *)
Definition step (cfg : Config) (c : Call) : Config :=
  match c with
  | CallSetProductionMode yes => SetProductionMode yes cfg
  | CallSetTimeout seconds => SetTimeout seconds cfg
  | CallRequestPickup _ => cfg
  end.

(** The configuration after a sequence of calls. *)
Definition run (calls : list Call) (cfg : Config) : Config :=
  fold_left step calls cfg.

(** A call that selects production. *)
Definition selectsProduction (c : Call) : bool :=
  match c with
  | CallSetProductionMode true => true
  | _ => false
  end.

(** A transport that answers every request with [x]. *)
Definition cannedPost (x : Exchange) : Z -> string -> string -> string -> Exchange :=
  fun _ _ _ _ => x.

(** A decoder that knows one body: it fills the structure with [decoded]
    for it, and reports an unexpected end of input for any other. *)
Definition cannedUnmarshal (known : string) (decoded : Response)
  : string -> Response -> Response * option error :=
  fun body r =>
    if String.eqb body known then (decoded, None)
    else (r, Some (Foreign "unexpected EOF")).

(** The reply of the carrier to a scheduled pickup, and its decoding. *)
Definition confirmedBody : string :=
  "<ABF><CONFIRMATION>ABC123</CONFIRMATION><NUMERRORS>0</NUMERRORS></ABF>".

Definition confirmedResponse : Response :=
  {| XMLName := {| Name_Space := ""; Name_Local := "ABF" |};
     ConfirmationNumber := "ABC123";
     Ship := None; Consignee := None; ThirdParty := None;
     NumErrors := 0;
     Response_Error := {| Code := ""; Message := "" |} |}.

(** A request with an API key and nothing else. *)
Definition bareRequest (items : list Commodity) : PickupRequest :=
  {| ID := "key"; RequesterType := RequesterShipper; PayTerms := PayTermsPrepaid;
     ShipContact := ""; ShipName := ""; ShipAddress := ""; ShipCity := "";
     ShipState := ""; ShipZip := ""; ShipCountry := ""; ShipPhone := "";
     ConsCity := ""; ConsState := ""; ConsZip := ""; ConsCountry := "";
     PickupDate := ""; AT := ""; OT := ""; CT := ""; Items := items;
     Test := ""; RequesterName := ""; RequesterEmail := ""; RequesterPhone := "";
     RequesterPhoneExt := ""; ShipNamePlus := ""; ShipPhoneExt := ""; ShipFax := "";
     ShipEmail := ""; ConsContact := ""; ConsName := ""; ConsNamePlus := "";
     ConsAddress := ""; ConsPhone := ""; ConsPhoneExt := ""; ConsFax := "";
     ConsEmail := ""; TPBContact := ""; TPBName := ""; TPBNamePlus := "";
     TPBAddress := ""; TPBCity := ""; TPBState := ""; TPBZip := ""; TPBCountry := "";
     TPBPhone := ""; TPBPhoneExt := ""; TPBFax := ""; TPBEmail := "";
     Bol := ""; PO1 := ""; CRN1 := "" |}.

(** ** The request parameters as a list of pairs *)

(** A sequence of calls of [v.Add]. *)
Definition addAll (pairs : list (string * string)) (v : url.Values) : url.Values :=
  foldl (fun v kv => url.Add kv.1 kv.2 v) v pairs.

(** The pairs [addFields] adds, in order. *)
Definition fieldPairs (cfg : Config) (p : PickupRequest) : list (string * string) :=
  [("ID", ID p); ("RequesterType", RequesterType p); ("PayTerms", PayTerms p);
   ("ShipContact", ShipContact p); ("ShipName", ShipName p);
   ("ShipAddress", ShipAddress p); ("ShipCity", ShipCity p);
   ("ShipState", ShipState p); ("ShipZip", ShipZip p);
   ("ShipCountry", ShipCountry p); ("ShipPhone", ShipPhone p);
   ("ConsCity", ConsCity p); ("ConsState", ConsState p); ("ConsZip", ConsZip p);
   ("ConsCountry", ConsCountry p); ("PickupDate", PickupDate p);
   ("AT", AT p); ("OT", OT p); ("CT", CT p);
   ("Bol", Bol p); ("PO1", PO1 p); ("CRN1", CRN1 p);
   ("Test", testMode cfg)].

(** The keys of [fieldPairs]. *)
Definition fieldKeys : list string :=
  ["ID"; "RequesterType"; "PayTerms"; "ShipContact"; "ShipName"; "ShipAddress";
   "ShipCity"; "ShipState"; "ShipZip"; "ShipCountry"; "ShipPhone"; "ConsCity";
   "ConsState"; "ConsZip"; "ConsCountry"; "PickupDate"; "AT"; "OT"; "CT";
   "Bol"; "PO1"; "CRN1"; "Test"].

(** The base names of the keys of a commodity. *)
Definition itemBases : list string := ["HN"; "HT"; "PN"; "PT"; "WT"].

(** The key [base + strconv.Itoa(index)]. *)
Definition itemKey (base : string) (index : nat) : string :=
  base +:+ strconv.Itoa (Z.of_nat index).

(** The keys of the commodity at [index]. *)
Definition itemKeys (index : nat) : list string :=
  (fun base => itemKey base index) <$> itemBases.

(** The pairs [addItem] adds, in order. *)
Definition itemPairs (index : nat) (item : Commodity) : list (string * string) :=
  [(itemKey "HN" index, strconv.Itoa (int_of_uint (HandlingUnits item)));
   (itemKey "HT" index, UnitType item);
   (itemKey "PN" index, strconv.Itoa (int_of_uint (Pieces item)));
   (itemKey "PT" index, PiecesType item);
   (itemKey "WT" index, strconv.FormatFloat_f0 (Weight item))].

(** The pairs [addItems] adds, in order. *)
Fixpoint itemsPairs (index : nat) (items : list Commodity) : list (string * string) :=
  match items with
  | [] => []
  | item :: rest => itemPairs index item ++ itemsPairs (S index) rest
  end.

(** The first two bytes of a key, and what follows them. *)
Definition keyBase (k : string) : string :=
  match k with
  | String a (String b _) => String a (String b EmptyString)
  | _ => k
  end.

Definition keySuffix (k : string) : string :=
  match k with
  | String _ (String _ s) => s
  | _ => EmptyString
  end.

(** The fields of [PickupRequest] whose names are never used as keys; the
    field [Test] is one more that is not read, its key holds [testMode]. *)
Definition unsentFields : list string :=
  ["RequesterName"; "RequesterEmail"; "RequesterPhone"; "RequesterPhoneExt";
   "ShipNamePlus"; "ShipPhoneExt"; "ShipFax"; "ShipEmail"; "ConsContact";
   "ConsName"; "ConsNamePlus"; "ConsAddress"; "ConsPhone"; "ConsPhoneExt";
   "ConsFax"; "ConsEmail"; "TPBContact"; "TPBName"; "TPBNamePlus"; "TPBAddress";
   "TPBCity"; "TPBState"; "TPBZip"; "TPBCountry"; "TPBPhone"; "TPBPhoneExt";
   "TPBFax"; "TPBEmail"].

(** A pallet of boxes. *)
Definition pallet : Commodity :=
  {| HandlingUnits := 1; UnitType := HandlingUnitPallet; Pieces := 10;
     PiecesType := "BX"; Weight := S754_finite false 5277655813324800 (-45);
     Class := "70"; NMFC := ""; NMFCSub := ""; Cube := S754_zero false;
     Description := "boxes"; Hazmat := "N" |}.

(** A request as [bareRequest], with a consignee name and a test flag. *)
Definition namedRequest : PickupRequest :=
  {| ID := "key"; RequesterType := RequesterShipper; PayTerms := PayTermsPrepaid;
     ShipContact := ""; ShipName := ""; ShipAddress := ""; ShipCity := "";
     ShipState := ""; ShipZip := ""; ShipCountry := ""; ShipPhone := "";
     ConsCity := ""; ConsState := ""; ConsZip := ""; ConsCountry := "";
     PickupDate := ""; AT := ""; OT := ""; CT := ""; Items := [pallet];
     Test := "N"; RequesterName := ""; RequesterEmail := ""; RequesterPhone := "";
     RequesterPhoneExt := ""; ShipNamePlus := ""; ShipPhoneExt := ""; ShipFax := "";
     ShipEmail := ""; ConsContact := ""; ConsName := "ACME"; ConsNamePlus := "";
     ConsAddress := ""; ConsPhone := ""; ConsPhoneExt := ""; ConsFax := "";
     ConsEmail := ""; TPBContact := ""; TPBName := ""; TPBNamePlus := "";
     TPBAddress := ""; TPBCity := ""; TPBState := ""; TPBZip := ""; TPBCountry := "";
     TPBPhone := ""; TPBPhoneExt := ""; TPBFax := ""; TPBEmail := "";
     Bol := ""; PO1 := ""; CRN1 := "" |}.

(** A request with sixteen commodities. *)
Definition sixteen : PickupRequest := bareRequest (replicate 16 pallet).

(** A call that is rejected before the network is used: it fails and has
    posted nothing. *)
Definition rejectedBeforeNetwork (o : Outcome) : Prop :=
  err o <> None /\ forall t u c b, HttpPost t u c b ∉ events o.

(** The argument of the last [SetTimeout] of a sequence of calls. *)
Fixpoint lastTimeout (calls : list Call) : option Z :=
  match calls with
  | [] => None
  | c :: rest =>
      match lastTimeout rest with
      | Some seconds => Some seconds
      | None => match c with
                | CallSetTimeout seconds => Some seconds
                | _ => None
                end
      end
  end.

(** A request with one commodity that counts [units] handling units. *)
Definition countedRequest (units : Z) : PickupRequest :=
  bareRequest [ {| HandlingUnits := units; UnitType := HandlingUnitPallet;
                   Pieces := 1; PiecesType := "BX"; Weight := S754_zero false;
                   Class := ""; NMFC := ""; NMFCSub := ""; Cube := S754_zero false;
                   Description := ""; Hazmat := "N" |} ].

(** The number of occurrences of a byte in a string. *)
Fixpoint countChar (c : ascii) (s : string) : nat :=
  match s with
  | EmptyString => 0
  | String c' rest => (if Ascii.eqb c' c then 1 else 0) + countChar c rest
  end.

(** A key with its first value, as [Encode] writes them. *)
Definition encodedPair (v : url.Values) (k : string) : string :=
  url.QueryEscape k +:+ "=" +:+ url.QueryEscape (hd "" (default [] (v !! k))).

(** The pairs written after the first one, each behind a separator. *)
Fixpoint separated (parts : list string) : string :=
  match parts with
  | [] => ""
  | part :: rest => "&" +:+ part +:+ separated rest
  end.

(** The part of a commodity that [RequestPickup] reads. *)
Definition sentPart (c : Commodity) : Z * string * Z * string * spec_float :=
  (HandlingUnits c, UnitType c, Pieces c, PiecesType c, Weight c).

(** A pallet as [pallet], declared hazardous and of another class. *)
Definition hazardousPallet : Commodity :=
  {| HandlingUnits := 1; UnitType := HandlingUnitPallet; Pieces := 10;
     PiecesType := "BX"; Weight := S754_finite false 5277655813324800 (-45);
     Class := "50"; NMFC := "12345"; NMFCSub := "6"; Cube := S754_zero false;
     Description := "acid"; Hazmat := "Y" |}.



(** The reply of the carrier to a request without a zip code. *)
Definition rejectedBody : string :=
  "<ABF><NUMERRORS>1</NUMERRORS><ERROR><ERRORCODE>E01</ERRORCODE><ERRORMESSAGE>Missing zip</ERRORMESSAGE></ERROR></ABF>".

(** A decoder for the bodies that are not plain documents, in the
    examples: it reports them all as errors. *)
Definition noOther : string -> Response -> Response * option error :=
  fun _ r => (r, Some (Foreign "not a plain document")).

(** * Properties *)

(** ** The configuration *)

Lemma wrap64_small (z : Z) : - 2^63 <= z < 2^63 -> wrap64 z = z.
Proof.
  intros Hz. unfold wrap64.
  rewrite Z.mod_small by lia. lia.
Qed.

Lemma wrap64_range (z : Z) : - 2^63 <= wrap64 z < 2^63.
Proof.
  unfold wrap64.
  pose proof (Z.mod_pos_bound (z + 2^63) (2^64) ltac:(lia)). lia.
Qed.


Lemma testMode_step (cfg : Config) (c : Call) :
  testMode (step cfg c) = if selectsProduction c then "N" else testMode cfg.
Proof. destruct c as [[]| |]; reflexivity. Qed.

Lemma testMode_run (calls : list Call) (cfg : Config) :
  testMode (run calls cfg) =
  if existsb selectsProduction calls then "N" else testMode cfg.
Proof.
  unfold run. revert cfg.
  induction calls as [|c calls IH]; intros cfg; simpl; [reflexivity|].
  rewrite IH, testMode_step.
  destruct (selectsProduction c); simpl; [|reflexivity].
  destruct (existsb selectsProduction calls); reflexivity.
Qed.

Lemma run_app (calls1 calls2 : list Call) (cfg : Config) :
  run (calls1 ++ calls2) cfg = run calls2 (run calls1 cfg).
Proof. unfold run. apply fold_left_app. Qed.

(** The difference between a number and its [int64] wrap-around is a
    multiple of 2^64. *)
Lemma wrap64_congruent (z : Z) : (wrap64 z - z) mod 2^64 = 0.
Proof.
  unfold wrap64.
  pose proof (Z.div_mod (z + 2^63) (2^64) ltac:(lia)) as Hdm.
  replace ((z + 2^63) mod 2^64 - 2^63 - z)
    with (- ((z + 2^63) / 2^64) * 2^64) by lia.
  apply Z.mod_mul. lia.
Qed.

(** C9, as the code has it: [SetTimeout] multiplies its argument by
    [time.Second] in [int64] arithmetic and leaves the mode alone.  The
    timeout afterwards is the [int64] that differs from the product by a
    multiple of 2^64; it is the argument taken as a count of seconds exactly
    when the argument lies between -9223372036 and 9223372036, and beyond
    that the product wraps around: the argument [30*time.Second] leaves a
    timeout of -6893488147419103232 nanoseconds. *)
Theorem SetTimeout_wraps (seconds : Z) (cfg : Config) :
  - 2^63 <= timeout (SetTimeout seconds cfg) < 2^63
  /\ (timeout (SetTimeout seconds cfg) - seconds * time_Second) mod 2^64 = 0
  /\ (timeout (SetTimeout seconds cfg) = seconds * time_Second <->
      -9223372036 <= seconds <= 9223372036)
  /\ testMode (SetTimeout seconds cfg) = testMode cfg
  /\ timeout (SetTimeout (30 * time_Second) cfg) = -6893488147419103232.
Proof.
  cbn [SetTimeout timeout testMode].
  split; [apply wrap64_range|].
  split; [apply wrap64_congruent|].
  split; [|split; reflexivity].
  split.
  - intros Heq. pose proof (wrap64_range (seconds * time_Second)) as Hr.
    rewrite Heq in Hr. unfold time_Second in Hr. lia.
  - intros Hs. apply wrap64_small. unfold time_Second. lia.
Qed.

Lemma SetTimeout_wraps_witness :
  -9223372036 <= 30 <= 9223372036
  /\ timeout (SetTimeout 30 initialConfig) = 30 * time_Second.
Proof.
  split; [lia|].
  destruct (SetTimeout_wraps 30 initialConfig) as (_ & _ & H & _).
  apply H. lia.
Defined.

(** C9, as the claim has it, fails: after [SetTimeout(30*time.Second)] the
    timeout is not 30 billion seconds, it is negative. *)
Lemma SetTimeout_thirty_seconds_overflows :
  timeout (SetTimeout (30 * time_Second) initialConfig) <> (30 * time_Second) * time_Second
  /\ timeout (SetTimeout (30 * time_Second) initialConfig) < 0.
Proof. split; [discriminate | reflexivity]. Qed.

(** C10: the mode is "Y" or "N" after every sequence of calls, and after a
    call of [SetProductionMode(true)] it is "N" whatever calls follow,
    [SetProductionMode(false)] among them. *)
Theorem production_mode_one_way (before after : list Call) :
  (testMode (run before initialConfig) = "Y" \/ testMode (run before initialConfig) = "N")
  /\ testMode (run (before ++ CallSetProductionMode true :: after) initialConfig) = "N"
  /\ testMode (run (before ++ CallSetProductionMode true :: CallSetProductionMode false :: after)
                 initialConfig) = "N".
Proof.
  rewrite !testMode_run, !existsb_app. simpl.
  rewrite !orb_true_r.
  destruct (existsb selectsProduction before); auto.
Qed.

(** ** The response interpreter *)


Section Interpreter.

Variable httpPost : Z -> string -> string -> string -> Exchange.
Variable xmlUnmarshal : string -> Response -> Response * option error.

(** The request [RequestPickup] posts. *)
Lemma RequestPickup_posts (cfg : Config) (p : PickupRequest) (x : Exchange) :
  httpPost (timeout cfg) abfPickupURL "application/x-www-form-urlencoded"
    (url.Encode (requestValues cfg p)) = x ->
  RequestPickup httpPost xmlUnmarshal cfg p =
  RequestPickup (cannedPost x) xmlUnmarshal cfg p.
Proof.
  intros Hx. unfold RequestPickup, cannedPost.
  fold (requestValues cfg p). rewrite Hx. reflexivity.
Qed.

(** C3: when the reply is decoded without error, the call succeeds exactly
    when the confirmation number is not empty, whatever [NumErrors] and the
    other fields hold; the decoded [Response] is returned either way, and
    with an empty confirmation number the error reads as the carrier's
    error message, a colon, and the name of the failed call. *)
Theorem RequestPickup_classifies (cfg : Config) (p : PickupRequest)
    (body : string) (r : Response) :
  httpPost (timeout cfg) abfPickupURL "application/x-www-form-urlencoded"
    (url.Encode (requestValues cfg p)) = Body body ->
  xmlUnmarshal body zeroResponse = (r, None) ->
  let o := RequestPickup httpPost xmlUnmarshal cfg p in
  responseData o = r
  /\ (err o = None <-> ConfirmationNumber r <> "")
  /\ (ConfirmationNumber r = "" ->
      exists e, err o = Some e
        /\ Error_string e =
           Message (Response_Error r) +:+ ": abf.RequestPickup - pickup request failed").
Proof.
  intros Hpost Hxml o. subst o.
  rewrite (RequestPickup_posts _ _ _ Hpost).
  unfold RequestPickup, cannedPost. rewrite Hxml.
  destruct (String.eqb_spec (ConfirmationNumber r) "") as [Hc|Hc]; simpl.
  - split; [reflexivity|]. split.
    + split; [discriminate | congruence].
    + intros _. eexists. split; reflexivity.
  - split; [reflexivity|]. split.
    + split; [intros _; exact Hc | reflexivity].
    + intros Hc'. contradiction.
Qed.

End Interpreter.

Lemma RequestPickup_classifies_witness :
  responseData (RequestPickup (cannedPost (Body confirmedBody))
                  (cannedUnmarshal confirmedBody confirmedResponse)
                  initialConfig (bareRequest [])) = confirmedResponse.
Proof.
  apply (RequestPickup_classifies (cannedPost (Body confirmedBody))
           (cannedUnmarshal confirmedBody confirmedResponse)
           initialConfig (bareRequest []) confirmedBody confirmedResponse);
    reflexivity.
Defined.

(** ** Malformed replies *)

(** The decoder on a confirming reply and on a rejecting reply. *)
Example Unmarshal_confirmedBody :
  xml.Unmarshal noOther confirmedBody zeroResponse = (confirmedResponse, None).
Proof. vm_compute. reflexivity. Qed.

Example Unmarshal_rejectedBody :
  xml.Unmarshal noOther rejectedBody zeroResponse =
  ({| XMLName := {| Name_Space := ""; Name_Local := "ABF" |};
      ConfirmationNumber := "";
      Ship := None; Consignee := None; ThirdParty := None;
      NumErrors := 1;
      Response_Error := {| Code := "E01"; Message := "Missing zip" |} |}, None).
Proof. vm_compute. reflexivity. Qed.


(** A body with no byte outside plain documents is decoded by the model. *)
Lemma decode_allPlain (items : list xml.Item) (open : option (list string))
    (text : string) (r : Response) :
  forallb (fun item => match item with xml.Unmodelled => false | _ => true end) items = true ->
  xml.decode open text r items <> xml.OutOfModel.
Proof.
  revert open text r.
  induction items as [|item items IH]; intros open text r Hall.
  - destruct open; discriminate.
  - cbn [forallb] in Hall. apply andb_prop in Hall as [Hitem Hall].
    destruct item as [name|name|t|msg|]; cbn [xml.decode]; try discriminate.
    + destruct open as [names|]; [apply IH, Hall|].
      destruct (String.eqb name "ABF"); [apply IH, Hall | discriminate].
    + destruct open as [[|top names]|]; try discriminate.
      * destruct (String.eqb name "ABF"); discriminate.
      * destruct (String.eqb name top); [|discriminate].
        destruct (xml.fieldOf (top :: names)) as [f|]; [|apply IH, Hall].
        destruct (xml.copyValue f text r) as [r1|e]; [apply IH, Hall | discriminate].
    + destruct open as [names|]; apply IH, Hall.
Qed.

Lemma allPlain_plain (body : string) :
  xml.allPlain body = true -> xml.plain body = true.
Proof.
  unfold xml.allPlain, xml.plain. intros Hall.
  pose proof (decode_allPlain _ None "" zeroResponse Hall) as Hd.
  destruct (xml.decode None "" zeroResponse (xml.tokens body)); congruence.
Qed.

(** What follows the end tag of the root is not read: the confirming reply
    followed by any bytes is decoded as the confirming reply. *)
Lemma Unmarshal_ignores_rest
    (other : string -> Response -> Response * option error) (rest : string) :
  xml.Unmarshal other (confirmedBody +:+ rest) zeroResponse = (confirmedResponse, None).
Proof. vm_compute. reflexivity. Qed.





(** ** The request encoder *)


Lemma addAll_app (ps qs : list (string * string)) (v : url.Values) :
  addAll (ps ++ qs) v = addAll qs (addAll ps v).
Proof. unfold addAll. apply foldl_app. Qed.

Lemma addFields_pairs (cfg : Config) (p : PickupRequest) (v : url.Values) :
  addFields cfg p v = addAll (fieldPairs cfg p) v.
Proof.
  unfold addFields, addAll, fieldPairs. cbv zeta. cbn [foldl fst snd].
  reflexivity.
Qed.

Lemma addItem_pairs (index : nat) (item : Commodity) (v : url.Values) :
  addItem index item v = addAll (itemPairs index item) v.
Proof.
  unfold addItem, addAll, itemPairs, itemKey. cbv zeta. cbn [foldl fst snd].
  reflexivity.
Qed.

Lemma addItems_pairs (index : nat) (items : list Commodity) (v : url.Values) :
  addItems index items v = addAll (itemsPairs index items) v.
Proof.
  revert index v. induction items as [|item rest IH]; intros index v.
  - reflexivity.
  - cbn [addItems itemsPairs].
    rewrite addAll_app, <- addItem_pairs. apply IH.
Qed.

Lemma requestValues_pairs (cfg : Config) (p : PickupRequest) :
  requestValues cfg p = addAll (fieldPairs cfg p ++ itemsPairs 0 (Items p)) ∅.
Proof.
  unfold requestValues.
  rewrite addItems_pairs, addFields_pairs, addAll_app. reflexivity.
Qed.

Lemma lookup_Add (key value k : string) (v : url.Values) :
  url.Add key value v !! k =
  if decide (key = k) then Some (default [] (v !! key) ++ [value]) else v !! k.
Proof. unfold url.Add. apply lookup_insert. Qed.

Lemma lookup_addAll_notin (pairs : list (string * string)) (v : url.Values) (k : string) :
  k ∉ pairs.*1 -> addAll pairs v !! k = v !! k.
Proof.
  revert v. induction pairs as [|[k' x'] rest IH]; intros v Hk; simpl.
  - reflexivity.
  - rewrite fmap_cons, not_elem_of_cons in Hk. destruct Hk as [Hne Hk].
    unfold addAll in *. simpl. rewrite IH by exact Hk.
    rewrite lookup_Add. simpl in Hne. destruct (decide (k' = k)); congruence.
Qed.

Lemma lookup_addAll_NoDup (pairs : list (string * string)) (v : url.Values)
    (k x : string) :
  NoDup pairs.*1 -> (k, x) ∈ pairs -> v !! k = None ->
  addAll pairs v !! k = Some [x].
Proof.
  revert v. induction pairs as [|[k' x'] rest IH]; intros v Hnd Hin Hv.
  - inversion Hin.
  - rewrite fmap_cons in Hnd. apply NoDup_cons in Hnd as [Hk' Hnd].
    simpl in Hk'. unfold addAll. simpl. fold (addAll rest (url.Add k' x' v)).
    apply elem_of_cons in Hin as [Heq|Hin].
    + injection Heq as -> ->.
      rewrite lookup_addAll_notin by exact Hk'.
      rewrite lookup_Add, decide_True by reflexivity.
      rewrite Hv. reflexivity.
    + apply IH; [exact Hnd | exact Hin |].
      rewrite lookup_Add, decide_False; [exact Hv|].
      intros ->. apply Hk'. apply list_elem_of_fmap. exists (k, x). auto.
Qed.

Lemma dom_addAll (pairs : list (string * string)) (v : url.Values) :
  dom (addAll pairs v) = list_to_set pairs.*1 ∪ dom v.
Proof.
  revert v. induction pairs as [|[k x] rest IH]; intros v.
  - simpl. set_solver.
  - unfold addAll. simpl. fold (addAll rest (url.Add k x v)).
    rewrite IH. unfold url.Add. rewrite dom_insert_L. set_solver.
Qed.

(** [strconv.Itoa] gives different strings for different numbers. *)
Lemma Itoa_inj (a b : Z) : strconv.Itoa a = strconv.Itoa b -> a = b.
Proof.
  unfold strconv.Itoa. intros Hab.
  assert (Hnn : forall z, Z.to_int z <> Decimal.Pos Decimal.Nil
                          /\ Z.to_int z <> Decimal.Neg Decimal.Nil).
  { intros [|q|q]; simpl; split; try discriminate;
      intros [= Hq]; exact (Unsigned.to_uint_nonnil q Hq). }
  apply (f_equal NilZero.int_of_string) in Hab.
  rewrite !NilZero.isi in Hab by apply Hnn.
  injection Hab as Hab.
  rewrite <- (DecimalZ.of_to a), <- (DecimalZ.of_to b), Hab. reflexivity.
Qed.

Lemma keySuffix_itemKey (base : string) (index : nat) :
  base ∈ itemBases -> keySuffix (itemKey base index) = strconv.Itoa (Z.of_nat index).
Proof.
  unfold itemBases. intros Hb.
  repeat (apply elem_of_cons in Hb as [->|Hb]; [reflexivity|]).
  inversion Hb.
Qed.

Lemma keyBase_itemKey (base : string) (index : nat) :
  base ∈ itemBases -> keyBase (itemKey base index) = base.
Proof.
  unfold itemBases. intros Hb.
  repeat (apply elem_of_cons in Hb as [->|Hb]; [reflexivity|]).
  inversion Hb.
Qed.

Lemma fieldPairs_keys (cfg : Config) (p : PickupRequest) :
  (fieldPairs cfg p).*1 = fieldKeys.
Proof. reflexivity. Qed.

Lemma itemPairs_keys (index : nat) (item : Commodity) :
  (itemPairs index item).*1 = itemKeys index.
Proof. reflexivity. Qed.

Lemma itemsPairs_keys (index : nat) (items : list Commodity) :
  (itemsPairs index items).*1 = seq index (length items) ≫= itemKeys.
Proof.
  revert index. induction items as [|item rest IH]; intros index.
  - reflexivity.
  - cbn [itemsPairs length seq]. rewrite fmap_app, IH, itemPairs_keys.
    reflexivity.
Qed.

Lemma NoDup_fieldKeys : NoDup fieldKeys.
Proof. apply (bool_decide_unpack _). vm_compute. exact I. Qed.

Lemma NoDup_itemKeys (index : nat) : NoDup (itemKeys index).
Proof.
  apply (NoDup_fmap_1 keyBase).
  change (keyBase <$> itemKeys index) with itemBases.
  apply (bool_decide_unpack _). vm_compute. exact I.
Qed.

Lemma itemKeys_elem (k : string) (index : nat) :
  k ∈ itemKeys index <-> exists base, base ∈ itemBases /\ k = itemKey base index.
Proof.
  unfold itemKeys. rewrite list_elem_of_fmap.
  split; intros (base & H1 & H2); exists base; auto.
Qed.

Lemma NoDup_itemsKeys (index n : nat) : NoDup (seq index n ≫= itemKeys).
Proof.
  apply NoDup_bind.
  - intros i j k _ _ Hi Hj.
    apply itemKeys_elem in Hi as (bi & Hbi & ->).
    apply itemKeys_elem in Hj as (bj & Hbj & Heq).
    apply (f_equal keySuffix) in Heq.
    rewrite !keySuffix_itemKey in Heq by assumption.
    apply Itoa_inj in Heq. lia.
  - intros i _. apply NoDup_itemKeys.
  - apply NoDup_seq.
Qed.

(** No key of a field has the base name of a commodity key. *)
Lemma fieldKeys_not_item (k : string) : k ∈ fieldKeys -> keyBase k ∉ itemBases.
Proof.
  revert k. apply Forall_forall.
  apply (bool_decide_unpack _). vm_compute. exact I.
Qed.

Lemma NoDup_request_keys (n : nat) :
  NoDup (fieldKeys ++ (seq 0 n ≫= itemKeys)).
Proof.
  apply NoDup_app. split; [apply NoDup_fieldKeys|].
  split; [|apply NoDup_itemsKeys].
  intros k Hf Hi. apply list_elem_of_bind in Hi as (i & Hi & _).
  apply itemKeys_elem in Hi as (base & Hb & ->).
  apply (fieldKeys_not_item _ Hf). rewrite keyBase_itemKey; assumption.
Qed.

Lemma requestPairs_keys (cfg : Config) (p : PickupRequest) :
  (fieldPairs cfg p ++ itemsPairs 0 (Items p)).*1 =
  fieldKeys ++ (seq 0 (length (Items p)) ≫= itemKeys).
Proof. rewrite fmap_app, fieldPairs_keys, itemsPairs_keys. reflexivity. Qed.

(** Every pair added is in the parameters, alone under its key. *)
Lemma requestValues_lookup (cfg : Config) (p : PickupRequest) (k x : string) :
  (k, x) ∈ fieldPairs cfg p ++ itemsPairs 0 (Items p) ->
  requestValues cfg p !! k = Some [x].
Proof.
  intros Hin. rewrite requestValues_pairs.
  apply lookup_addAll_NoDup; [|exact Hin|apply lookup_empty].
  rewrite requestPairs_keys. apply NoDup_request_keys.
Qed.

Lemma requestValues_dom (cfg : Config) (p : PickupRequest) :
  dom (requestValues cfg p) =
  list_to_set (fieldKeys ++ (seq 0 (length (Items p)) ≫= itemKeys)).
Proof.
  rewrite requestValues_pairs, dom_addAll, requestPairs_keys, dom_empty_L.
  apply right_id_L, _.
Qed.


(** A key that is neither the key of a field nor built on the base name of
    a commodity key is not in the parameters. *)
Lemma requestValues_lookup_None (cfg : Config) (p : PickupRequest) (k : string) :
  k ∉ fieldKeys -> keyBase k ∉ itemBases -> requestValues cfg p !! k = None.
Proof.
  intros Hf Hb. apply not_elem_of_dom. rewrite requestValues_dom.
  rewrite elem_of_list_to_set, elem_of_app. intros [Hk|Hk]; [exact (Hf Hk)|].
  apply list_elem_of_bind in Hk as (i & Hk & _).
  apply itemKeys_elem in Hk as (base & Hbase & ->).
  apply Hb. rewrite keyBase_itemKey; assumption.
Qed.

(** The keys of the position after the last commodity are not in the
    parameters. *)
Lemma requestValues_lookup_past (cfg : Config) (p : PickupRequest) (k : string) :
  k ∈ itemKeys (length (Items p)) -> requestValues cfg p !! k = None.
Proof.
  intros Hk. apply not_elem_of_dom. rewrite requestValues_dom.
  apply itemKeys_elem in Hk as (base & Hbase & ->).
  rewrite elem_of_list_to_set, elem_of_app. intros [Hk|Hk].
  - apply (fieldKeys_not_item _ Hk). rewrite keyBase_itemKey; assumption.
  - apply list_elem_of_bind in Hk as (i & Hk & Hi).
    apply itemKeys_elem in Hk as (base' & Hbase' & Heq).
    apply (f_equal keySuffix) in Heq.
    rewrite !keySuffix_itemKey in Heq by assumption.
    apply Itoa_inj in Heq. apply elem_of_seq in Hi. lia.
Qed.

Lemma length_itemsKeys (index n : nat) :
  length (seq index n ≫= itemKeys) = (5 * n)%nat.
Proof.
  revert index. induction n as [|n IH]; intros index.
  - reflexivity.
  - cbn [seq]. rewrite bind_cons, length_app, IH.
    change (length (itemKeys index)) with 5%nat. lia.
Qed.

(** The number of keys: 23 for the fields, five for each commodity. *)
Lemma requestValues_size (cfg : Config) (p : PickupRequest) :
  size (dom (requestValues cfg p)) = (23 + 5 * length (Items p))%nat.
Proof.
  rewrite requestValues_dom, size_list_to_set by apply NoDup_request_keys.
  rewrite length_app, length_itemsKeys. reflexivity.
Qed.

(** The pairs of the commodity at position [i]. *)
Lemma itemsPairs_elem (index i : nat) (items : list Commodity) (item : Commodity)
    (kx : string * string) :
  items !! i = Some item -> kx ∈ itemPairs (index + i) item ->
  kx ∈ itemsPairs index items.
Proof.
  revert index i. induction items as [|it rest IH]; intros index i Hi Hkx.
  - discriminate.
  - cbn [itemsPairs]. apply elem_of_app. destruct i as [|i].
    + injection Hi as ->. left. rewrite Nat.add_0_r in Hkx. exact Hkx.
    + right. apply (IH (S index) i); [exact Hi|].
      replace (S index + i)%nat with (index + S i)%nat by lia. exact Hkx.
Qed.

(** The commodity at position [i] of the list is encoded under the keys
    with the suffix [i], counted from zero. *)
Lemma requestValues_item (cfg : Config) (p : PickupRequest) (i : nat) (item : Commodity) :
  Items p !! i = Some item ->
  let v := requestValues cfg p in
  v !! itemKey "HN" i = Some [strconv.Itoa (int_of_uint (HandlingUnits item))]
  /\ v !! itemKey "HT" i = Some [UnitType item]
  /\ v !! itemKey "PN" i = Some [strconv.Itoa (int_of_uint (Pieces item))]
  /\ v !! itemKey "PT" i = Some [PiecesType item]
  /\ v !! itemKey "WT" i = Some [strconv.FormatFloat_f0 (Weight item)].
Proof.
  intros Hi v. subst v.
  repeat split; apply requestValues_lookup, elem_of_app; right;
    apply (itemsPairs_elem 0%nat i _ item _ Hi); unfold itemPairs;
    rewrite !elem_of_cons; auto 10.
Qed.

(** C7: the parameters of every request hold the key [Test] once, with
    the package variable [testMode] as its only value, whatever the request
    says (its field [Test] included); the variable starts as "Y", and after
    any sequence of calls it is "N" exactly when one of them was
    [SetProductionMode(true)]. *)
Theorem mode_key_appended (cfg : Config) (p : PickupRequest) (calls : list Call) :
  requestValues cfg p !! "Test" = Some [testMode cfg]
  /\ testMode initialConfig = "Y"
  /\ testMode (run calls initialConfig) =
     (if existsb selectsProduction calls then "N" else "Y").
Proof.
  split; [|split; [reflexivity | apply testMode_run]].
  apply requestValues_lookup, elem_of_app. left.
  unfold fieldPairs. rewrite !elem_of_cons. auto 30.
Qed.

(** C2, as the code has it: 28 declared fields of the request are never
    encoded, and the field [Test] is not read; a consignee name set by the
    caller is not in the parameters. *)
Theorem optional_fields_not_sent (cfg : Config) (p : PickupRequest) :
  Forall (fun k => requestValues cfg p !! k = None) unsentFields
  /\ requestValues initialConfig namedRequest !! "ConsName" = None
  /\ requestValues initialConfig namedRequest !! "Test" = Some ["Y"].
Proof.
  split; [|split].
  - apply Forall_forall. intros k Hk.
    apply requestValues_lookup_None; revert k Hk; apply Forall_forall;
      apply (bool_decide_unpack _); vm_compute; exact I.
  - apply requestValues_lookup_None; apply (bool_decide_unpack _);
      vm_compute; exact I.
  - apply (mode_key_appended initialConfig namedRequest []).
Qed.

(** C4, as the code has it: the five keys of a commodity carry its
    position in the list counted from zero.  With [n] commodities the
    parameters hold the 5 * n keys of the suffixes 0 to n - 1 next to the 23
    keys of the fields, and no key with the suffix n; a request with one
    commodity has the keys HN0, HT0, PN0, PT0 and WT0 and none of HN1, HT1,
    PN1, PT1 and WT1. *)
Theorem item_keys_zero_based (cfg : Config) (p : PickupRequest) :
  Forall (fun k => is_Some (requestValues cfg p !! k))
    (seq 0 (length (Items p)) ≫= itemKeys)
  /\ Forall (fun k => requestValues cfg p !! k = None) (itemKeys (length (Items p)))
  /\ size (dom (requestValues cfg p)) = (23 + 5 * length (Items p))%nat
  /\ Forall (fun k => is_Some (requestValues initialConfig namedRequest !! k))
       ["HN0"; "HT0"; "PN0"; "PT0"; "WT0"]
  /\ Forall (fun k => requestValues initialConfig namedRequest !! k = None)
       ["HN1"; "HT1"; "PN1"; "PT1"; "WT1"].
Proof.
  assert (Hin : forall c q, Forall (fun k => is_Some (requestValues c q !! k))
                  (seq 0 (length (Items q)) ≫= itemKeys)).
  { intros c q. apply Forall_forall. intros k Hk. apply elem_of_dom.
    rewrite requestValues_dom, elem_of_list_to_set, elem_of_app. right. exact Hk. }
  assert (Hout : forall c q, Forall (fun k => requestValues c q !! k = None)
                   (itemKeys (length (Items q)))).
  { intros c q. apply Forall_forall. intros k. apply requestValues_lookup_past. }
  split; [apply Hin|]. split; [apply Hout|].
  split; [apply requestValues_size|].
  split; [apply (Hin initialConfig namedRequest) | apply (Hout initialConfig namedRequest)].
Qed.


Section Validation.

Variable httpPost : Z -> string -> string -> string -> Exchange.
Variable xmlUnmarshal : string -> Response -> Response * option error.

(** Every call posts the encoded parameters. *)
Lemma RequestPickup_events_post (cfg : Config) (p : PickupRequest) :
  HttpPost (timeout cfg) abfPickupURL "application/x-www-form-urlencoded"
    (url.Encode (requestValues cfg p))
  ∈ events (RequestPickup httpPost xmlUnmarshal cfg p).
Proof.
  unfold RequestPickup. fold (requestValues cfg p).
  destruct (httpPost _ _ _ _) as [e|e|body]; simpl;
    [| |destruct (xmlUnmarshal body zeroResponse) as [r [e|]]; simpl;
        [|destruct (String.eqb (ConfirmationNumber r) ""); simpl]];
    rewrite !elem_of_cons; auto.
Qed.

(** C1, as the code has it: [RequestPickup] does not look at the number
    of commodities.  For every request, with more than 15 commodities too,
    every commodity is encoded (five keys each, none dropped), the request is
    posted, and the call succeeds exactly when the exchange gives a body
    that is decoded without error and holds a confirmation number. *)
Theorem RequestPickup_no_item_limit (cfg : Config) (p : PickupRequest) :
  let o := RequestPickup httpPost xmlUnmarshal cfg p in
  HttpPost (timeout cfg) abfPickupURL "application/x-www-form-urlencoded"
    (url.Encode (requestValues cfg p)) ∈ events o
  /\ Forall (fun k => is_Some (requestValues cfg p !! k))
       (seq 0 (length (Items p)) ≫= itemKeys)
  /\ size (dom (requestValues cfg p)) = (23 + 5 * length (Items p))%nat
  /\ (err o = None <->
      exists body r,
        httpPost (timeout cfg) abfPickupURL "application/x-www-form-urlencoded"
          (url.Encode (requestValues cfg p)) = Body body
        /\ xmlUnmarshal body zeroResponse = (r, None)
        /\ ConfirmationNumber r <> "").
Proof.
  intros o. subst o.
  split; [apply RequestPickup_events_post|].
  split.
  { apply Forall_forall. intros k Hk. apply elem_of_dom.
    rewrite requestValues_dom, elem_of_list_to_set, elem_of_app. right. exact Hk. }
  split; [apply requestValues_size|].
  unfold RequestPickup. fold (requestValues cfg p).
  destruct (httpPost _ _ _ _) as [e|e|body]; simpl.
  - split; [discriminate | intros (b & r & H & _); discriminate].
  - split; [discriminate | intros (b & r & H & _); discriminate].
  - destruct (xmlUnmarshal body zeroResponse) as [r [e|]] eqn:Hxml; simpl.
    + split; [discriminate|].
      intros (b & r' & [= <-] & H & _). rewrite Hxml in H. discriminate.
    + destruct (String.eqb_spec (ConfirmationNumber r) "") as [Hc|Hc]; simpl.
      * split; [discriminate|].
        intros (b & r' & [= <-] & H & Hne). rewrite Hxml in H.
        injection H as <-. contradiction.
      * split; [|reflexivity]. intros _. exists body, r. auto.
Qed.

End Validation.

(** C1, as the claim has it, fails: a request with sixteen commodities is
    posted, and with a confirming reply the call succeeds. *)
Lemma sixteen_items_not_rejected :
  length (Items sixteen) = 16%nat
  /\ err (RequestPickup (cannedPost (Body confirmedBody))
            (cannedUnmarshal confirmedBody confirmedResponse)
            initialConfig sixteen) = None
  /\ ~ rejectedBeforeNetwork
         (RequestPickup (cannedPost (Body confirmedBody))
            (cannedUnmarshal confirmedBody confirmedResponse)
            initialConfig sixteen).
Proof.
  split; [reflexivity|]. split; [reflexivity|].
  intros [_ Hno]. eapply Hno. apply RequestPickup_events_post.
Qed.

(** ** The order of the encoded pairs *)

Lemma string_leb_trans (a b c : string) :
  String.leb a b = true -> String.leb b c = true -> String.leb a c = true.
Proof.
  unfold String.leb. revert b c.
  induction a as [|c1 s1 IH]; intros [|c2 s2] [|c3 s3]; simpl; try easy.
  unfold Ascii.compare.
  destruct (N.compare_spec (N_of_ascii c1) (N_of_ascii c2)) as [H12|H12|H12];
    destruct (N.compare_spec (N_of_ascii c2) (N_of_ascii c3)) as [H23|H23|H23];
    destruct (N.compare_spec (N_of_ascii c1) (N_of_ascii c3)) as [H13|H13|H13];
    try easy; try lia.
  apply IH.
Qed.

#[local] Instance string_le_trans : Transitive url.string_le.
Proof. intros a b c. apply string_leb_trans. Qed.

#[local] Instance string_le_antisym : AntiSymm (=) url.string_le.
Proof. intros a b. apply String.leb_antisym. Qed.

#[local] Instance string_le_total : Total url.string_le.
Proof. intros a b. apply String.leb_total. Qed.

(** Sorting does away with the order in which the keys were enumerated. *)
Lemma merge_sort_range (keys1 keys2 : list string) :
  keys1 ≡ₚ keys2 ->
  merge_sort url.string_le keys1 = merge_sort url.string_le keys2.
Proof.
  intros Hp. apply (Sorted_unique url.string_le).
  - apply Sorted_merge_sort, _.
  - apply Sorted_merge_sort, _.
  - rewrite !merge_sort_Permutation. exact Hp.
Qed.

(** C8: the encoded request is a function of the request and of the mode
    only.  Whatever order the keys of the parameters are enumerated in, the
    output of [Encode] is the same string, the one [RequestPickup] posts;
    and the keys are written in ascending order. *)
Theorem Encode_deterministic (cfg : Config) (p : PickupRequest)
    (keys1 keys2 : list string) :
  keys1 ≡ₚ elements (dom (requestValues cfg p)) ->
  keys2 ≡ₚ elements (dom (requestValues cfg p)) ->
  url.Encode_range keys1 (requestValues cfg p) =
  url.Encode_range keys2 (requestValues cfg p)
  /\ url.Encode_range keys1 (requestValues cfg p) = url.Encode (requestValues cfg p)
  /\ Sorted url.string_le (merge_sort url.string_le keys1).
Proof.
  intros H1 H2. unfold url.Encode, url.Encode_range.
  rewrite (merge_sort_range keys1 _ H1), (merge_sort_range keys2 _ H2).
  split; [reflexivity|]. split; [reflexivity|].
  apply Sorted_merge_sort, _.
Qed.

Lemma Encode_deterministic_witness :
  url.Encode_range (elements (dom (requestValues initialConfig namedRequest)))
    (requestValues initialConfig namedRequest) =
  url.Encode_range (reverse (elements (dom (requestValues initialConfig namedRequest))))
    (requestValues initialConfig namedRequest).
Proof.
  apply (Encode_deterministic initialConfig namedRequest
           (elements (dom (requestValues initialConfig namedRequest)))
           (reverse (elements (dom (requestValues initialConfig namedRequest))))).
  - reflexivity.
  - apply reverse_Permutation.
Defined.

(** The request posted for [namedRequest] in test mode. *)
Example Encode_namedRequest :
  url.Encode (requestValues initialConfig namedRequest) =
  "AT=&Bol=&CRN1=&CT=&ConsCity=&ConsCountry=&ConsState=&ConsZip=&HN0=1&HT0=PLT&ID=key&OT=&PN0=10&PO1=&PT0=BX&PayTerms=P&PickupDate=&RequesterType=1&ShipAddress=&ShipCity=&ShipContact=&ShipCountry=&ShipName=&ShipPhone=&ShipState=&ShipZip=&Test=Y&WT0=150".
Proof. vm_compute. reflexivity. Qed.

(** * Further properties of the package *)


Lemma timeout_step (cfg : Config) (c : Call) :
  timeout (step cfg c) =
  match c with
  | CallSetTimeout seconds => wrap64 (seconds * time_Second)
  | _ => timeout cfg
  end.
Proof. destruct c as [[]| |]; reflexivity. Qed.

(** The timeout after a sequence of calls is the one set by the last
    [SetTimeout] among them, and the default of ten seconds when there is
    none: [SetProductionMode] and [RequestPickup] leave it alone. *)
Theorem timeout_last_SetTimeout (calls : list Call) :
  timeout (run calls initialConfig) =
  match lastTimeout calls with
  | Some seconds => wrap64 (seconds * time_Second)
  | None => 10000000000
  end.
Proof.
  change 10000000000 with (timeout initialConfig).
  unfold run. generalize initialConfig.
  induction calls as [|c calls IH]; intros cfg; [reflexivity|].
  cbn [fold_left lastTimeout]. rewrite IH.
  destruct (lastTimeout calls); [reflexivity|].
  rewrite timeout_step. destruct c; reflexivity.
Qed.

(** The commodity at position [i] of [Items] is encoded under the five
    keys with the suffix [i], counted from zero, each holding one value: the
    two counts converted to [int] and printed in decimal, the two type codes
    as they are, and the weight printed without decimals.  The values of
    one commodity never end up under the keys of another. *)
Theorem commodity_values_at_position (cfg : Config) (p : PickupRequest)
    (i : nat) (item : Commodity) :
  Items p !! i = Some item ->
  requestValues cfg p !! ("HN" +:+ strconv.Itoa (Z.of_nat i)) =
    Some [strconv.Itoa (int_of_uint (HandlingUnits item))]
  /\ requestValues cfg p !! ("HT" +:+ strconv.Itoa (Z.of_nat i)) = Some [UnitType item]
  /\ requestValues cfg p !! ("PN" +:+ strconv.Itoa (Z.of_nat i)) =
       Some [strconv.Itoa (int_of_uint (Pieces item))]
  /\ requestValues cfg p !! ("PT" +:+ strconv.Itoa (Z.of_nat i)) = Some [PiecesType item]
  /\ requestValues cfg p !! ("WT" +:+ strconv.Itoa (Z.of_nat i)) =
       Some [strconv.FormatFloat_f0 (Weight item)].
Proof. intros Hi. exact (requestValues_item cfg p i item Hi). Qed.

Lemma commodity_values_at_position_witness :
  requestValues initialConfig namedRequest !! "WT0" = Some ["150"].
Proof.
  apply (commodity_values_at_position initialConfig namedRequest 0 pallet).
  reflexivity.
Defined.

Lemma pairs_key_elem (pairs : list (string * string)) (k : string) :
  k ∈ pairs.*1 -> exists x, (k, x) ∈ pairs.
Proof.
  intros Hk. apply list_elem_of_fmap in Hk as ([k' x] & -> & Hin).
  exists x. exact Hin.
Qed.

(** Each of the 22 fields that are sent is in the parameters under its
    key with the value of the field, whatever the commodities are, and no
    key of the parameters holds more than one value: a commodity never adds
    to the key of a field or of another commodity. *)
Theorem parameters_single_valued (cfg : Config) (p : PickupRequest) :
  Forall (fun kx => requestValues cfg p !! kx.1 = Some [kx.2]) (fieldPairs cfg p)
  /\ map_Forall (fun _ vs => length vs = 1%nat) (requestValues cfg p).
Proof.
  split.
  - apply Forall_forall. intros [k x] Hkx.
    apply requestValues_lookup, elem_of_app. left. exact Hkx.
  - intros k vs Hk.
    assert (Hdom : k ∈ dom (requestValues cfg p)) by (apply elem_of_dom; eauto).
    rewrite requestValues_dom, elem_of_list_to_set, <- (requestPairs_keys cfg p) in Hdom.
    apply pairs_key_elem in Hdom as [x Hx].
    rewrite (requestValues_lookup cfg p k x Hx) in Hk.
    injection Hk as <-. reflexivity.
Qed.

Lemma Itoa_negative (z : Z) : z < 0 -> exists s, strconv.Itoa z = String "-" s.
Proof.
  intros Hz. destruct z as [|q|q]; try lia.
  eexists. reflexivity.
Qed.

(** The counts of a commodity are [uint] values converted to [int] before
    they are printed.  A count below 2^63 is sent as it is; a count of 2^63
    or more wraps around, and is sent as a negative number. *)
Theorem large_count_sent_negative (cfg : Config) (p : PickupRequest)
    (i : nat) (item : Commodity) :
  Items p !! i = Some item ->
  (0 <= HandlingUnits item < 2^63 ->
   requestValues cfg p !! itemKey "HN" i = Some [strconv.Itoa (HandlingUnits item)])
  /\ (2^63 <= HandlingUnits item <= uint_max ->
      int_of_uint (HandlingUnits item) = HandlingUnits item - 2^64
      /\ exists s, requestValues cfg p !! itemKey "HN" i = Some [String "-" s]).
Proof.
  intros Hi. destruct (requestValues_item cfg p i item Hi) as [HN _].
  split; intros Hr.
  - rewrite HN. unfold int_of_uint. rewrite wrap64_small by lia. reflexivity.
  - assert (Hw : int_of_uint (HandlingUnits item) = HandlingUnits item - 2^64).
    { unfold int_of_uint, wrap64, uint_max in *.
      replace (HandlingUnits item + 2^63)
        with ((HandlingUnits item - 2^63) + 1 * 2^64) by lia.
      rewrite Z.mod_add by lia. rewrite Z.mod_small by lia. lia. }
    split; [exact Hw|].
    destruct (Itoa_negative (int_of_uint (HandlingUnits item))) as [s Hs].
    { rewrite Hw. unfold uint_max in Hr. lia. }
    exists s. rewrite HN, Hs. reflexivity.
Qed.

Lemma large_count_sent_negative_witness :
  2^63 <= uint_max <= uint_max
  /\ exists s,
       requestValues initialConfig (countedRequest uint_max) !! itemKey "HN" 0 =
       Some [String "-" s].
Proof.
  split; [unfold uint_max; lia|].
  destruct (large_count_sent_negative initialConfig (countedRequest uint_max) 0
              {| HandlingUnits := uint_max; UnitType := HandlingUnitPallet;
                 Pieces := 1; PiecesType := "BX"; Weight := S754_zero false;
                 Class := ""; NMFC := ""; NMFCSub := ""; Cube := S754_zero false;
                 Description := ""; Hazmat := "N" |} eq_refl) as [_ H].
  destruct H as [_ Hs]; [simpl; unfold uint_max; lia|].
  exact Hs.
Defined.

(** ** The shape of the posted body *)


Lemma string_app_cons (x : ascii) (a b : string) :
  String x a +:+ b = String x (a +:+ b).
Proof. reflexivity. Qed.

Lemma string_app_nil_l (a : string) : "" +:+ a = a.
Proof. reflexivity. Qed.

Lemma string_app_assoc (a b c : string) : (a +:+ b) +:+ c = a +:+ (b +:+ c).
Proof.
  induction a as [|x a IH]; [reflexivity|].
  rewrite !string_app_cons. f_equal. exact IH.
Qed.

Lemma string_app_nil_r (a : string) : a +:+ "" = a.
Proof.
  induction a as [|x a IH]; [reflexivity|].
  rewrite string_app_cons. f_equal. exact IH.
Qed.

Lemma countChar_app (c : ascii) (a b : string) :
  countChar c (a +:+ b) = (countChar c a + countChar c b)%nat.
Proof.
  induction a as [|x a IH]; [reflexivity|].
  rewrite string_app_cons. cbn [countChar]. rewrite IH. lia.
Qed.

Lemma concat_separated (part : string) (rest : list string) :
  String.concat "&" (part :: rest) = part +:+ separated rest.
Proof.
  revert part. induction rest as [|q rest IH]; intros part.
  - simpl. rewrite string_app_nil_r. reflexivity.
  - change (String.concat "&" (part :: q :: rest))
      with (part +:+ "&" +:+ String.concat "&" (q :: rest)).
    rewrite IH. reflexivity.
Qed.

Lemma write_keys_separated (v : url.Values) (keys : list string) (buf : string) :
  Forall (fun k => exists x, v !! k = Some [x]) keys ->
  buf <> "" ->
  url.write_keys v keys buf = buf +:+ separated (encodedPair v <$> keys).
Proof.
  intros Hall. revert buf.
  induction Hall as [|k keys [x Hk] _ IH]; intros buf Hbuf.
  - simpl. rewrite string_app_nil_r. reflexivity.
  - destruct buf as [|b buf]; [contradiction|].
    cbn [url.write_keys fmap list_fmap separated]. unfold encodedPair at 1.
    rewrite Hk. simpl.
    rewrite IH by (rewrite !string_app_cons; discriminate).
    rewrite !string_app_assoc. reflexivity.
Qed.

Lemma encodedPair_nonempty (v : url.Values) (k : string) : encodedPair v k <> "".
Proof.
  unfold encodedPair. destruct (url.QueryEscape k);
    rewrite ?string_app_nil_l, !string_app_cons; discriminate.
Qed.

(** [Encode] of parameters with one value under each key: the pairs in
    the order of their keys, with a separator between two of them. *)
Lemma Encode_range_single (v : url.Values) (keys : list string) :
  Forall (fun k => exists x, v !! k = Some [x]) keys ->
  url.Encode_range keys v =
  String.concat "&" (encodedPair v <$> merge_sort url.string_le keys).
Proof.
  intros Hall. unfold url.Encode_range.
  assert (Hs : Forall (fun k => exists x, v !! k = Some [x])
                 (merge_sort url.string_le keys)).
  { rewrite merge_sort_Permutation. exact Hall. }
  destruct Hs as [|k ks [x Hk] Hks]; [reflexivity|].
  rewrite fmap_cons, concat_separated.
  cbn [url.write_keys]. rewrite Hk. simpl. rewrite string_app_nil_l.
  rewrite write_keys_separated; [|exact Hks|].
  - unfold encodedPair at 2. rewrite Hk. reflexivity.
  - intros H. apply (encodedPair_nonempty v k). unfold encodedPair.
    rewrite Hk. exact H.
Qed.

Lemma requestValues_key_single (cfg : Config) (p : PickupRequest) (k : string) :
  k ∈ fieldKeys ++ (seq 0 (length (Items p)) ≫= itemKeys) ->
  exists x, requestValues cfg p !! k = Some [x].
Proof.
  rewrite <- (requestPairs_keys cfg p). intros Hk.
  apply pairs_key_elem in Hk as [x Hx].
  exists x. apply requestValues_lookup. exact Hx.
Qed.

Lemma requestValues_elements (cfg : Config) (p : PickupRequest) :
  elements (dom (requestValues cfg p)) ≡ₚ
  fieldKeys ++ (seq 0 (length (Items p)) ≫= itemKeys).
Proof.
  rewrite requestValues_dom. apply elements_list_to_set, NoDup_request_keys.
Qed.

Lemma posted_body_form_aux (cfg : Config) (p : PickupRequest) :
  url.Encode (requestValues cfg p) =
  String.concat "&"
    (encodedPair (requestValues cfg p) <$>
     merge_sort url.string_le (fieldKeys ++ (seq 0 (length (Items p)) ≫= itemKeys))).
Proof.
  unfold url.Encode. rewrite Encode_range_single.
  - rewrite (merge_sort_range _ _ (requestValues_elements cfg p)). reflexivity.
  - rewrite requestValues_elements. apply Forall_forall.
    intros k. apply requestValues_key_single.
Qed.

(** The body that is posted: for each key of the parameters, in ascending
    byte order of the keys, the escaped key, an equals sign and the escaped
    value, with an ampersand between two pairs and none at either end. *)
Theorem posted_body_form (cfg : Config) (p : PickupRequest) :
  url.Encode (requestValues cfg p) =
  String.concat "&"
    (encodedPair (requestValues cfg p) <$>
     merge_sort url.string_le (fieldKeys ++ (seq 0 (length (Items p)) ≫= itemKeys))).
Proof. apply posted_body_form_aux. Qed.

Lemma upperhex_plain (n : N) (c : ascii) :
  c = "&"%char \/ c = "="%char -> Ascii.eqb (url.upperhex n) c = false.
Proof.
  intros [->| ->]; (destruct n as [|q]; [reflexivity|]);
    do 5 (try (destruct q as [q|q|]; try reflexivity)).
Qed.

(** An escaped string holds no ampersand and no equals sign. *)
Lemma QueryEscape_plain (c : ascii) (s : string) :
  c = "&"%char \/ c = "="%char -> countChar c (url.QueryEscape s) = 0%nat.
Proof.
  intros Hc. induction s as [|a s IH]; [reflexivity|].
  cbn [url.QueryEscape].
  destruct (Ascii.eqb a " ") eqn:Hsp.
  - cbn [countChar]. rewrite IH. destruct Hc as [->| ->]; reflexivity.
  - destruct (url.shouldEscape a) eqn:Hesc.
    + cbn [countChar]. rewrite IH, !(upperhex_plain _ c Hc).
      destruct Hc as [->| ->]; reflexivity.
    + cbn [countChar]. rewrite IH.
      destruct (Ascii.eqb_spec a c) as [Heq|Hne]; [|reflexivity].
      subst a. destruct Hc as [->| ->]; vm_compute in Hesc; discriminate.
Qed.

Lemma encodedPair_count (v : url.Values) (k : string) :
  countChar "&" (encodedPair v k) = 0%nat
  /\ countChar "=" (encodedPair v k) = 1%nat.
Proof.
  unfold encodedPair. rewrite !countChar_app.
  rewrite !QueryEscape_plain by auto. split; reflexivity.
Qed.

Lemma separated_count (v : url.Values) (keys : list string) :
  countChar "&" (separated (encodedPair v <$> keys)) = length keys
  /\ countChar "=" (separated (encodedPair v <$> keys)) = length keys.
Proof.
  induction keys as [|k keys [IH1 IH2]]; [split; reflexivity|].
  cbn [fmap list_fmap separated length].
  destruct (encodedPair_count v k) as [H1 H2].
  rewrite !countChar_app, IH1, IH2, H1, H2. split; reflexivity.
Qed.

(** The number of separators in the posted body depends on the number of
    commodities alone: 22 + 5 * n ampersands and 23 + 5 * n equals signs for
    n commodities, whatever the fields of the request and of its commodities
    hold.  No value can add a parameter to the request or cut one short. *)
Theorem posted_body_separators (cfg : Config) (p : PickupRequest) :
  countChar "&" (url.Encode (requestValues cfg p)) = (22 + 5 * length (Items p))%nat
  /\ countChar "=" (url.Encode (requestValues cfg p)) = (23 + 5 * length (Items p))%nat.
Proof.
  rewrite posted_body_form_aux.
  set (keys := fieldKeys ++ (seq 0 (length (Items p)) ≫= itemKeys)).
  assert (Hlen : length (merge_sort url.string_le keys)
                 = (23 + 5 * length (Items p))%nat).
  { rewrite merge_sort_Permutation. unfold keys.
    rewrite length_app, length_itemsKeys. reflexivity. }
  destruct (merge_sort url.string_le keys) as [|k ks]; [discriminate|].
  rewrite fmap_cons, concat_separated, !countChar_app.
  destruct (encodedPair_count (requestValues cfg p) k) as [H1 H2].
  destruct (separated_count (requestValues cfg p) ks) as [S1 S2].
  rewrite H1, H2, S1, S2. cbn [length] in Hlen. lia.
Qed.


Lemma itemsPairs_sentPart (index : nat) (items items' : list Commodity) :
  sentPart <$> items = sentPart <$> items' ->
  itemsPairs index items = itemsPairs index items'.
Proof.
  revert index items'.
  induction items as [|c items IH]; intros index [|c' items'] Heq;
    try discriminate; [reflexivity|].
  rewrite !fmap_cons in Heq. injection Heq as Hu Ht Hp Hpt Hw Hrest.
  cbn [itemsPairs]. rewrite (IH (S index) items' Hrest).
  unfold itemPairs. rewrite Hu, Ht, Hp, Hpt, Hw. reflexivity.
Qed.

(** Two requests that agree on the 22 fields that are sent, and whose
    commodities agree on handling units, unit type, pieces, pieces type and
    weight, give the same parameters and the same posted body: the class,
    the NMFC codes, the cube, the description and the hazmat flag of a
    commodity never reach the carrier, no more than the other fields of the
    request. *)
Theorem unsent_data_ignored (cfg : Config) (p p' : PickupRequest) :
  fieldPairs cfg p = fieldPairs cfg p' ->
  sentPart <$> Items p = sentPart <$> Items p' ->
  requestValues cfg p = requestValues cfg p'
  /\ url.Encode (requestValues cfg p) = url.Encode (requestValues cfg p').
Proof.
  intros Hf Hi.
  assert (Hv : requestValues cfg p = requestValues cfg p').
  { rewrite !requestValues_pairs, Hf, (itemsPairs_sentPart 0 _ _ Hi). reflexivity. }
  split; [exact Hv | rewrite Hv; reflexivity].
Qed.

Lemma unsent_data_ignored_witness :
  requestValues initialConfig (bareRequest [pallet]) =
  requestValues initialConfig (bareRequest [hazardousPallet]).
Proof.
  apply (unsent_data_ignored initialConfig (bareRequest [pallet])
           (bareRequest [hazardousPallet])); reflexivity.
Defined.
